(** * The quote server of [app.py]

    A Flask application with one route: [GET /] picks one entry of the
    module-level list [quotes] with [random.choice] and renders it into the
    template [index.html].

    The view function is embedded once, as a program over the operations a
    Flask view can perform (reading a module global, drawing from the
    process-wide generator, calling the renderer, ...).  That program is then
    run in two ways:
    - [run]: state passing over the process state, with the generator as an
      explicit state; it also records the calls made to the collaborators;
    - [runD]: as a finite distribution, every draw of [_randbelow n] being
      uniform on [0, n), which is the contract of Python's [random] module.

    Python [str] values are represented by their UTF-8 encoding. *)

From Stdlib Require Import String Ascii List Bool Arith NArith ZArith Lia QArith.
Import ListNotations.
Close Scope Q_scope.
Open Scope nat_scope.
Open Scope string_scope.

Set Implicit Arguments.

(** ** Data *)

(** The exceptions the view can meet. *)
Inductive exn : Type :=
| IndexError
| TemplateNotFound (name : string).

Inductive http_method : Type := GET | HEAD | OPTIONS | POST | PUT | DELETE | PATCH.

Record request : Type := {
  method : http_method;
  path : string;
  query : string;
  headers : list (string * string);
  payload : string
}.

Record response : Type := {
  status : nat;
  body : string
}.

(** The process state a view can reach besides the generator: the binding of
    the module global [quotes], what has been logged, and what has been
    written to storage. *)
Record Store : Type := {
  global_quotes : list string;
  logged : list string;
  stored : list (string * string)
}.

(** [quotes = [ ... ]], lines 6-12. *)
Definition quotes : list string :=
  [ "💡 Believe in yourself — you’re unstoppable!";
    "🚀 Every great dream begins with a dreamer.";
    "🔥 The best time to start was yesterday. The next best time is now.";
    "🌟 Code. Deploy. Repeat. Success follows consistency.";
    "🎯 Focus on progress, not perfection." ].

(** The state once the module body has run: [quotes] is bound, nothing has
    been logged or stored. *)
Definition startup : Store :=
  {| global_quotes := quotes; logged := []; stored := [] |}.

(** ** Programs *)

(** The operations available to a view.  [Mutate] stands for any write to the
    process state (rebinding or mutating a global, logging, writing to
    storage); [FlaskRequest] for reading [flask.request]. *)
Inductive prog (A : Type) : Type :=
| Ret (a : A)
| Raise (e : exn)
| LoadGlobal (k : list string -> prog A)
| Mutate (f : Store -> Store) (k : prog A)
| FlaskRequest (k : request -> prog A)
| RandBelow (n : nat) (k : nat -> prog A)
| RenderTemplate (name : string) (context : list (string * string))
                 (k : string -> prog A).

Arguments Ret {A} a.
Arguments Raise {A} e.
Arguments LoadGlobal {A} k.
Arguments Mutate {A} f k.
Arguments FlaskRequest {A} k.
Arguments RandBelow {A} n k.
Arguments RenderTemplate {A} name context k.

Fixpoint bind {A B : Type} (p : prog A) (f : A -> prog B) : prog B :=
  match p with
  | Ret a => f a
  | Raise e => Raise e
  | LoadGlobal k => LoadGlobal (fun l => bind (k l) f)
  | Mutate g k => Mutate g (bind k f)
  | FlaskRequest k => FlaskRequest (fun r => bind (k r) f)
  | RandBelow n k => RandBelow n (fun i => bind (k i) f)
  | RenderTemplate name context k =>
      RenderTemplate name context (fun html => bind (k html) f)
  end.

Notation "x <- c ;; k" := (bind c (fun x => k))
  (at level 61, c at next level, right associativity).

(** [random.choice(seq)]: [IndexError] on an empty sequence, otherwise
    [seq[self._randbelow(len(seq))]]; indexing out of range raises
    [IndexError] too. *)
Definition choice (seq : list string) : prog string :=
  if Nat.eqb (length seq) 0 then Raise IndexError
  else RandBelow (length seq) (fun i =>
         match nth_error seq i with
         | Some x => Ret x
         | None => Raise IndexError
         end).

(** Line 16: [message = random.choice(quotes)], [quotes] being looked up in
    the module globals when the view runs. *)
Definition select_message : prog string :=
  LoadGlobal (fun quotes => choice quotes).

(** Lines 15-17:
    [def home(): message = random.choice(quotes);
                 return render_template('index.html', message=message)]. *)
Definition home : prog string :=
  message <- select_message ;;
  RenderTemplate "index.html" [("message", message)] Ret.

(** No node of the program writes to the process state. *)
Fixpoint no_mutation {A : Type} (p : prog A) : Prop :=
  match p with
  | Ret _ | Raise _ => True
  | LoadGlobal k => forall l, no_mutation (k l)
  | Mutate _ _ => False
  | FlaskRequest k => forall r, no_mutation (k r)
  | RandBelow _ k => forall i, no_mutation (k i)
  | RenderTemplate _ _ k => forall html, no_mutation (k html)
  end.

(** No node of the program reads the request. *)
Fixpoint no_request {A : Type} (p : prog A) : Prop :=
  match p with
  | Ret _ | Raise _ => True
  | LoadGlobal k => forall l, no_request (k l)
  | Mutate _ k => no_request k
  | FlaskRequest _ => False
  | RandBelow _ k => forall i, no_request (k i)
  | RenderTemplate _ _ k => forall html, no_request (k html)
  end.

(** ** The collaborators *)

(** The process-wide generator of the [random] module, by its contract:
    [_randbelow n] answers an integer below [n] and moves the generator to a
    new state. *)
Class RandomGen (G : Type) : Type := {
  randbelow : G -> nat -> nat * G;
  randbelow_lt : forall g n, 0 < n -> fst (randbelow g n) < n
}.

(** What the hosting framework supplies: the two halves of the HTML skeleton
    of [index.html] around its placeholder, the answer to a request that no
    view is routed for, and the page shown for an exception. *)
Record Flask : Type := {
  skeleton_before : string;
  skeleton_after : string;
  unrouted : request -> response;
  error_page : exn -> string
}.

Fixpoint lookup (key : string) (context : list (string * string)) : string :=
  match context with
  | [] => ""
  | (k, v) :: rest => if String.eqb k key then v else lookup key rest
  end.

(** The skeleton with [message] in the place of its placeholder. *)
Definition page (fw : Flask) (message : string) : string :=
  skeleton_before fw ++ message ++ skeleton_after fw.

(** Modelled from the spec: the renderer and the template [index.html], which
    are not part of [app.py].  The renderer consumes the named variable
    [message] and substitutes it for the placeholder of a fixed HTML
    skeleton; any other template is unknown to it. *)
Definition render_template (fw : Flask) (name : string)
    (context : list (string * string)) : exn + string :=
  if String.eqb name "index.html"
  then inr (page fw (lookup "message" context))
  else inl (TemplateNotFound name).

(** A call made to a collaborator. *)
Inductive call : Type :=
| CallRandBelow (n : nat) (answer : nat)
| CallRender (name : string) (context : list (string * string)).

(** ** Running a program on the process state *)

Record World (G : Type) : Type := {
  store : Store;
  rng : G
}.

Section Run.

Context (fw : Flask) {G : Type} {RG : RandomGen G}.

Fixpoint run {A : Type} (p : prog A) (req : request) (w : World G)
  : (exn + A) * World G * list call :=
  match p with
  | Ret a => (inr a, w, [])
  | Raise e => (inl e, w, [])
  | LoadGlobal k => run (k (global_quotes (store w))) req w
  | Mutate f k => run k req {| store := f (store w); rng := rng w |}
  | FlaskRequest k => run (k req) req w
  | RandBelow n k =>
      let (i, g') := randbelow (rng w) n in
      let '(r, w', calls) := run (k i) req {| store := store w; rng := g' |} in
      (r, w', CallRandBelow n i :: calls)
  | RenderTemplate name context k =>
      match render_template fw name context with
      | inl e => (inl e, w, [CallRender name context])
      | inr html =>
          let '(r, w', calls) := run (k html) req w in
          (r, w', CallRender name context :: calls)
      end
  end.

(** [@app.route('/')]: the rule matches the path [/], for the method [GET]
    and for [HEAD], which Flask adds to every rule that accepts [GET]. *)
Definition routed (req : request) : bool :=
  String.eqb (path req) "/" &&
  match method req with GET | HEAD => true | _ => false end.

(** A string returned by a view becomes a response with status 200; an
    exception escaping the view becomes a response with status 500. *)
Definition to_response (req : request) (r : exn + string) : response :=
  match r with
  | inr html =>
      {| status := 200;
         body := match method req with HEAD => "" | _ => html end |}
  | inl e => {| status := 500; body := error_page fw e |}
  end.

(** One request: dispatched to [home] when the rule matches, answered by the
    framework alone otherwise. *)
Definition handle (req : request) (w : World G) : response * World G :=
  if routed req
  then let '(r, w', _) := run home req w in (to_response req r, w')
  else (unrouted fw req, w).

(** The requests of a process, one after the other. *)
Fixpoint serve (reqs : list request) (w : World G) : list response * World G :=
  match reqs with
  | [] => ([], w)
  | req :: rest =>
      let (resp, w') := handle req w in
      let (resps, w'') := serve rest w' in
      (resp :: resps, w'')
  end.

End Run.

(** ** Running a program as a distribution *)

(** A finite distribution: outcomes with their weights. *)
Definition dist (A : Type) : Type := list (Q * A).

Definition dret {A : Type} (a : A) : dist A := [(1%Q, a)].

Definition dbind {A B : Type} (d : dist A) (f : A -> dist B) : dist B :=
  flat_map (fun pa => map (fun qb => (Qmult (fst pa) (fst qb), snd qb)) (f (snd pa))) d.

Definition dmap {A B : Type} (f : A -> B) (d : dist A) : dist B :=
  map (fun pa => (fst pa, f (snd pa))) d.

(** The uniform distribution on [0, n); it has no outcome when [n = 0]. *)
Definition uniform (n : nat) : dist nat :=
  map (fun i => (Qmake 1 (Pos.of_nat n), i)) (seq 0 n).

(** The weight of an event. *)
Definition pr {A : Type} (event : A -> bool) (d : dist A) : Q :=
  fold_right (fun pa acc => if event (snd pa) then Qplus (fst pa) acc else acc) 0%Q d.

(** The product of a list of distributions: the outcomes are drawn one after
    the other, each from its own distribution. *)
Fixpoint joint {A : Type} (ds : list (dist A)) : dist (list A) :=
  match ds with
  | [] => dret []
  | d :: rest => dbind d (fun x => dbind (joint rest) (fun xs => dret (x :: xs)))
  end.

Section RunD.

Variable fw : Flask.

Fixpoint runD {A : Type} (p : prog A) (req : request) (s : Store)
  : dist ((exn + A) * Store) :=
  match p with
  | Ret a => dret (inr a, s)
  | Raise e => dret (inl e, s)
  | LoadGlobal k => runD (k (global_quotes s)) req s
  | Mutate f k => runD k req (f s)
  | FlaskRequest k => runD (k req) req s
  | RandBelow n k => dbind (uniform n) (fun i => runD (k i) req s)
  | RenderTemplate name context k =>
      match render_template fw name context with
      | inl e => dret (inl e, s)
      | inr html => runD (k html) req s
      end
  end.

Definition handleD (req : request) (s : Store) : dist (response * Store) :=
  if routed req
  then dmap (fun rs => (to_response fw req (fst rs), snd rs)) (runD home req s)
  else dret (unrouted fw req, s).

Fixpoint serveD (reqs : list request) (s : Store) : dist (list response * Store) :=
  match reqs with
  | [] => dret ([], s)
  | req :: rest =>
      dbind (handleD req s) (fun rs =>
        dbind (serveD rest (snd rs)) (fun rss =>
          dret (fst rs :: fst rss, snd rss)))
  end.

End RunD.

(** The event that a run selects [q]. *)
Definition selects (q : string) (o : (exn + string) * Store) : bool :=
  match fst o with
  | inr message => String.eqb message q
  | inl _ => false
  end.

(** The response that carries the page of [q]. *)
Definition ok (fw : Flask) (q : string) : response :=
  {| status := 200; body := page fw q |}.

(** ** A generator to run the programs with *)

(** A linear congruential generator on 31 bits, reduced into the range asked
    for. *)
Definition lcg_next (g : N) : N :=
  N.modulo (1103515245 * g + 12345)%N 2147483648%N.

Definition lcg_randbelow (g : N) (n : nat) : nat * N :=
  (N.to_nat (N.modulo (lcg_next g) (N.of_nat n)), lcg_next g).

#[export, refine] Instance lcg : RandomGen N :=
  {| randbelow := lcg_randbelow; randbelow_lt := _ |}.
Proof.
  intros g n Hn. unfold lcg_randbelow. simpl fst.
  assert (H : (N.modulo (lcg_next g) (N.of_nat n) < N.of_nat n)%N)
    by (apply N.mod_lt; lia).
  lia.
Defined.

(** A framework to run the programs with: a small skeleton. *)
Definition sample_flask : Flask :=
  {| skeleton_before := "<html><body><h1>";
     skeleton_after := "</h1></body></html>";
     unrouted := fun _ => {| status := 404; body := "Not Found" |};
     error_page := fun _ => "Internal Server Error" |}.

Definition get_root : request :=
  {| method := GET; path := "/"; query := ""; headers := []; payload := "" |}.

(** The process right after startup, its generator in state [g]. *)
Definition boot {G : Type} (g : G) : World G :=
  {| store := startup; rng := g |}.

(** ** Vocabulary for sequences of requests *)

(** [k] draws below [n] in a row, from the generator state [g]: the state
    they leave. *)
Fixpoint draws {G : Type} {RG : RandomGen G} (k n : nat) (g : G) : G :=
  match k with
  | 0 => g
  | S k' => draws k' n (snd (randbelow g n))
  end.

(** A generator that answers from a script: each draw takes the next number
    of the script, reduced into the range asked for; 0 once the script is
    over. *)
Definition scripted_randbelow (g : list nat) (n : nat) : nat * list nat :=
  match g with
  | [] => (0, [])
  | x :: rest => (x mod n, rest)
  end.

#[export, refine] Instance scripted : RandomGen (list nat) :=
  {| randbelow := scripted_randbelow; randbelow_lt := _ |}.
Proof.
  intros [|x rest] n Hn; simpl; [exact Hn|].
  apply Nat.mod_upper_bound. lia.
Defined.


(** ** Vocabulary for events on responses *)

Definition response_eqb (a b : response) : bool :=
  Nat.eqb (status a) (status b) && String.eqb (body a) (body b).

(** The response is the page of [q]. *)
Definition shows (fw : Flask) (q : string) (r : response) : bool :=
  response_eqb r (ok fw q).

(** None of the responses is the page of [q]. *)
Definition never_shows (fw : Flask) (q : string)
    (o : list response * Store) : bool :=
  forallb (fun r => negb (shows fw q r)) (fst o).

(** There were two responses and they are the same. *)
Definition same_twice (o : list response * Store) : bool :=
  match fst o with
  | [a; b] => response_eqb a b
  | _ => false
  end.

Fixpoint qpow (x : Q) (k : nat) : Q :=
  match k with
  | 0 => 1%Q
  | S k' => Qmult x (qpow x k')
  end.

Definition qsum {A : Type} (f : A -> Q) (l : list A) : Q :=
  fold_right (fun a acc => Qplus (f a) acc) 0%Q l.

(** The share of the entries of [l] that are not [q]. *)
Definition miss (l : list string) (q : string) : Q :=
  Qmult (Qmake 1 (Pos.of_nat (length l)))
        (inject_Z (Z.of_nat (length l - count_occ string_dec l q))).

(** ** Strings *)

Lemma append_length (a b : string) :
  String.length (a ++ b) = String.length a + String.length b.
Proof. induction a as [|c a IH]; simpl; [reflexivity | now rewrite IH]. Qed.

Lemma append_inv_head (p a b : string) : p ++ a = p ++ b -> a = b.
Proof.
  induction p as [|c p IH]; simpl; intros H; [exact H|].
  injection H as H. now apply IH.
Qed.

Lemma append_inv_tail (s a b : string) : a ++ s = b ++ s -> a = b.
Proof.
  revert b. induction a as [|c a IH]; intros [|d b] H; simpl in H.
  - reflexivity.
  - apply (f_equal String.length) in H. simpl in H.
    rewrite append_length in H. lia.
  - apply (f_equal String.length) in H. simpl in H.
    rewrite append_length in H. lia.
  - injection H as Hc H. subst d. f_equal. now apply IH.
Qed.

Lemma page_inj (fw : Flask) (a b : string) : page fw a = page fw b -> a = b.
Proof.
  unfold page. intros H.
  apply append_inv_head in H. now apply append_inv_tail in H.
Qed.

(** ** The configured list *)

Lemma quotes_length : length quotes = 5.
Proof. reflexivity. Qed.

Lemma quotes_nonempty_strings : Forall (fun q => q <> "") quotes.
Proof. repeat constructor; discriminate. Qed.

Lemma quotes_NoDup : NoDup quotes.
Proof.
  unfold quotes.
  repeat (constructor; [simpl; intros H; decompose [or] H; (discriminate || contradiction) |]).
  constructor.
Qed.

(** ** What the view touches *)

Lemma choice_no_mutation (seq : list string) : no_mutation (choice seq).
Proof.
  unfold choice. destruct (Nat.eqb (length seq) 0); simpl; [exact I|].
  intros i. destruct (nth_error seq i); exact I.
Qed.

Lemma choice_no_request (seq : list string) : no_request (choice seq).
Proof.
  unfold choice. destruct (Nat.eqb (length seq) 0); simpl; [exact I|].
  intros i. destruct (nth_error seq i); exact I.
Qed.

Lemma bind_no_mutation {A B : Type} (p : prog A) (f : A -> prog B) :
  no_mutation p -> (forall a, no_mutation (f a)) -> no_mutation (bind p f).
Proof.
  intros Hp Hf. induction p; simpl in *; auto; contradiction.
Qed.

Lemma bind_no_request {A B : Type} (p : prog A) (f : A -> prog B) :
  no_request p -> (forall a, no_request (f a)) -> no_request (bind p f).
Proof.
  intros Hp Hf. induction p; simpl in *; auto; contradiction.
Qed.

Lemma home_no_mutation : no_mutation home.
Proof.
  apply bind_no_mutation.
  - intros l. apply choice_no_mutation.
  - intros message html. exact I.
Qed.

Lemma home_no_request : no_request home.
Proof.
  apply bind_no_request.
  - intros l. apply choice_no_request.
  - intros message html. exact I.
Qed.

(** ** Properties of the runs on the process state *)

Section RunFacts.

Context (fw : Flask) {G : Type} {RG : RandomGen G}.

(** A program without a write leaves the store as it found it. *)
Lemma run_frame {A : Type} (p : prog A) (req : request) (w : World G) :
  no_mutation p -> store (snd (fst (run fw p req w))) = store w.
Proof.
  revert w. induction p as [a|e|k IH|f k IH|k IH|n k IH|name context k IH];
    intros w Hp; simpl in *.
  - reflexivity.
  - reflexivity.
  - apply IH, Hp.
  - contradiction.
  - apply IH, Hp.
  - destruct (randbelow (rng w) n) as [i g'].
    specialize (IH i {| store := store w; rng := g' |} (Hp i)).
    destruct (run fw (k i) req {| store := store w; rng := g' |}) as [[r w'] calls].
    exact IH.
  - destruct (render_template fw name context) as [e|html]; [reflexivity|].
    specialize (IH html w (Hp html)).
    destruct (run fw (k html) req w) as [[r w'] calls]. exact IH.
Qed.

(** A program that does not read the request runs the same on every
    request. *)
Lemma run_request_irrelevant {A : Type} (p : prog A) (r1 r2 : request)
    (w : World G) :
  no_request p -> run fw p r1 w = run fw p r2 w.
Proof.
  revert w. induction p as [a|e|k IH|f k IH|k IH|n k IH|name context k IH];
    intros w Hp; simpl in *.
  - reflexivity.
  - reflexivity.
  - apply IH, Hp.
  - apply IH, Hp.
  - contradiction.
  - destruct (randbelow (rng w) n) as [i g']. now rewrite (IH i _ (Hp i)).
  - destruct (render_template fw name context) as [e|html]; [reflexivity|].
    now rewrite (IH html _ (Hp html)).
Qed.

(** The run of [home] when the list bound to [quotes] is not empty: one draw
    below its length, the entry at the index drawn, one call of the
    renderer. *)
Lemma run_home (req : request) (w : World G) :
  global_quotes (store w) <> [] ->
  exists i q,
    i = fst (randbelow (rng w) (length (global_quotes (store w)))) /\
    nth_error (global_quotes (store w)) i = Some q /\
    run fw home req w =
      (inr (page fw q),
       {| store := store w;
          rng := snd (randbelow (rng w) (length (global_quotes (store w)))) |},
       [CallRandBelow (length (global_quotes (store w))) i;
        CallRender "index.html" [("message", q)]]).
Proof.
  destruct w as [s g]. simpl. intros Hne.
  remember (global_quotes s) as l eqn:El.
  assert (Hlen : 0 < length l) by (destruct l; [contradiction | simpl; lia]).
  pose proof (randbelow_lt g Hlen) as Hi.
  destruct (nth_error l (fst (randbelow g (length l)))) as [q|] eqn:Hq;
    [| apply nth_error_None in Hq; lia].
  exists (fst (randbelow g (length l))), q.
  split; [reflexivity|]. split; [exact Hq|].
  unfold home, select_message, choice. simpl.
  destruct (Nat.eqb (length l) 0) eqn:E;
    [apply Nat.eqb_eq in E; lia|].
  simpl.
  destruct (randbelow g (length l)) as [j g'] eqn:Er. simpl in *.
  rewrite Hq. reflexivity.
Qed.

(** The run of [home] when the list bound to [quotes] is empty. *)
Lemma run_home_empty (req : request) (w : World G) :
  global_quotes (store w) = [] ->
  run fw home req w = (inl IndexError, w, []).
Proof.
  intros He. unfold home, select_message, choice. simpl. rewrite He. reflexivity.
Qed.

Lemma handle_store (req : request) (w : World G) :
  store (snd (handle fw req w)) = store w.
Proof.
  unfold handle. destruct (routed req); [|reflexivity].
  pose proof (run_frame home req w home_no_mutation) as H.
  destruct (run fw home req w) as [[r w'] calls]. exact H.
Qed.

Lemma serve_store (reqs : list request) (w : World G) :
  store (snd (serve fw reqs w)) = store w.
Proof.
  revert w. induction reqs as [|req rest IH]; intros w; simpl; [reflexivity|].
  pose proof (handle_store req w) as H.
  destruct (handle fw req w) as [resp w'].
  specialize (IH w'). destruct (serve fw rest w') as [resps w''].
  simpl in *. congruence.
Qed.

Lemma routed_get_root (req : request) :
  method req = GET -> path req = "/" -> routed req = true.
Proof. intros Hm Hp. unfold routed. now rewrite Hm, Hp. Qed.

End RunFacts.

(** ** The endpoint *)

(** The first request of a process whose generator starts in state 0. *)
Example first_request :
  handle sample_flask get_root (boot 0%N) =
  (ok sample_flask "💡 Believe in yourself — you’re unstoppable!",
   boot 12345%N).
Proof. reflexivity. Qed.

(** [random.choice] on an empty list: the view raises and the framework
    answers 500. *)
Example empty_list_request :
  fst (handle sample_flask get_root
         {| store := {| global_quotes := []; logged := []; stored := [] |};
            rng := 0%N |})
  = {| status := 500; body := "Internal Server Error" |}.
Proof. reflexivity. Qed.

(** C1: every GET request to the root path, whatever the generator state and
    whatever requests the process has served before, is answered with status
    200 and a body that is the skeleton with one string in its placeholder;
    that string is an entry of the configured list and is not empty, and no
    other string gives the same body. *)
Theorem home_returns_one_quote (fw : Flask) (G : Type) (RG : RandomGen G)
    (g : G) (earlier : list request) (req : request) :
  method req = GET -> path req = "/" ->
  exists q,
    In q quotes /\ q <> "" /\
    fst (handle fw req (snd (serve fw earlier (boot g)))) =
      {| status := 200; body := page fw q |} /\
    (forall q', body (fst (handle fw req (snd (serve fw earlier (boot g)))))
                = page fw q' -> q' = q).
Proof.
  intros Hm Hp.
  pose proof (serve_store fw earlier (boot g)) as Hs.
  set (w := snd (serve fw earlier (boot g))) in *.
  assert (Hq : global_quotes (store w) = quotes) by (rewrite Hs; reflexivity).
  destruct (run_home fw req w) as (i & q & _ & Hnth & Hrun).
  { rewrite Hq. discriminate. }
  rewrite Hq in Hnth.
  assert (Hin : In q quotes) by (eapply nth_error_In; exact Hnth).
  exists q. split; [exact Hin|]. split.
  { pose proof quotes_nonempty_strings as Hf.
    rewrite Forall_forall in Hf. apply Hf, Hin. }
  assert (Hh : fst (handle fw req w) = {| status := 200; body := page fw q |}).
  { unfold handle. rewrite (routed_get_root req Hm Hp), Hrun.
    simpl. now rewrite Hm. }
  split; [exact Hh|].
  intros q' Hb. rewrite Hh in Hb. simpl in Hb.
  symmetry. now apply (page_inj fw).
Qed.

(** The third request of a process whose generator started in state 7. *)
Lemma home_returns_one_quote_witness :
  exists q,
    In q quotes /\ q <> "" /\
    fst (handle sample_flask get_root
           (snd (serve sample_flask [get_root; get_root] (boot 7%N)))) =
      {| status := 200; body := page sample_flask q |} /\
    (forall q', body (fst (handle sample_flask get_root
                             (snd (serve sample_flask [get_root; get_root]
                                     (boot 7%N)))))
                = page sample_flask q' -> q' = q).
Proof.
  apply (@home_returns_one_quote sample_flask N lcg 7%N [get_root; get_root]
           get_root); reflexivity.
Defined.

(** C3: the list bound at startup is a literal with entries, every state the
    process reaches by serving requests still binds [quotes] to it, and in
    every such state the view returns a page: it does not raise
    [IndexError], the outcome of [random.choice] on an empty list. *)
Theorem empty_list_error_unreachable (fw : Flask) (G : Type)
    (RG : RandomGen G) (g : G) (earlier : list request) (req : request) :
  quotes <> [] /\
  global_quotes (store (snd (serve fw earlier (boot g)))) = quotes /\
  fst (fst (run fw home req (snd (serve fw earlier (boot g))))) <> inl IndexError /\
  exists html,
    fst (fst (run fw home req (snd (serve fw earlier (boot g))))) = inr html.
Proof.
  pose proof (serve_store fw earlier (boot g)) as Hs.
  set (w := snd (serve fw earlier (boot g))) in *.
  assert (Hq : global_quotes (store w) = quotes) by (rewrite Hs; reflexivity).
  destruct (run_home fw req w) as (i & q & _ & _ & Hrun).
  { rewrite Hq. discriminate. }
  split; [discriminate|]. split; [exact Hq|].
  rewrite Hrun. simpl. split; [discriminate | eauto].
Qed.

(** C5: when the list bound to [quotes] has exactly one entry, a GET request
    to the root path is answered with the page of that entry, from every
    generator state. *)
Theorem single_quote_always_returned (fw : Flask) (G : Type)
    (RG : RandomGen G) (req : request) (w : World G) (q : string) :
  method req = GET -> path req = "/" ->
  global_quotes (store w) = [q] ->
  fst (handle fw req w) = {| status := 200; body := page fw q |}.
Proof.
  intros Hm Hp Hq.
  destruct (run_home fw req w) as (i & q0 & Hi & Hnth & Hrun).
  { rewrite Hq. discriminate. }
  rewrite Hq in Hnth, Hi. simpl in Hi.
  assert (Hlt : i < 1) by (subst i; apply randbelow_lt; lia).
  assert (i = 0) by lia. subst i. rewrite H in Hnth. simpl in Hnth.
  injection Hnth as <-.
  unfold handle. rewrite (routed_get_root req Hm Hp), Hrun.
  simpl. now rewrite Hm.
Qed.

(** A process whose list holds one entry, its generator in state 42. *)
Lemma single_quote_always_returned_witness :
  fst (handle sample_flask get_root
         {| store := {| global_quotes := ["Only one."]; logged := [];
                        stored := [] |};
            rng := 42%N |})
  = {| status := 200; body := page sample_flask "Only one." |}.
Proof.
  apply (@single_quote_always_returned sample_flask N lcg); reflexivity.
Defined.

(** C6: the list bound to [quotes] is preserved.  One run of the view leaves
    the binding as it found it, and after any sequence of requests served
    from startup the binding is still the literal: same entries, same length,
    same order. *)
Theorem quotes_preserved (fw : Flask) (G : Type) (RG : RandomGen G)
    (g : G) (reqs : list request) (req : request) (w : World G) :
  global_quotes (store (snd (fst (run fw home req w)))) = global_quotes (store w) /\
  global_quotes (store (snd (handle fw req w))) = global_quotes (store w) /\
  global_quotes (store (snd (serve fw reqs (boot g)))) = quotes.
Proof.
  split; [|split].
  - now rewrite (run_frame fw home req w home_no_mutation).
  - now rewrite handle_store.
  - now rewrite serve_store.
Qed.

(** C7, as stated, fails: the run of the view from the generator state 0
    ends in another state of the process, the generator having moved on. *)
Lemma home_changes_process_state :
  snd (fst (run sample_flask home get_root (boot 0%N))) <> boot 0%N.
Proof. vm_compute. discriminate. Qed.

(** C7, amended: the view makes one draw and one call of the renderer and
    nothing else; it leaves the store (the binding of [quotes], what was
    logged, what was stored) as it found it, and the only part of the
    process state that moves is the generator, by the one draw. *)
Theorem home_frame (fw : Flask) (G : Type) (RG : RandomGen G)
    (req : request) (w : World G) :
  store (snd (fst (run fw home req w))) = store w /\
  logged (store (snd (fst (run fw home req w)))) = logged (store w) /\
  stored (store (snd (fst (run fw home req w)))) = stored (store w) /\
  rng (snd (fst (run fw home req w))) =
    match global_quotes (store w) with
    | [] => rng w
    | _ :: _ => snd (randbelow (rng w) (length (global_quotes (store w))))
    end /\
  Forall (fun c => match c with
                   | CallRandBelow n _ => n = length (global_quotes (store w))
                   | CallRender name _ => name = "index.html"
                   end)
         (snd (run fw home req w)).
Proof.
  pose proof (run_frame fw home req w home_no_mutation) as Hs.
  split; [exact Hs|]. split; [now rewrite Hs|]. split; [now rewrite Hs|].
  destruct (global_quotes (store w)) as [|q0 l] eqn:El.
  - rewrite (run_home_empty fw req w El). simpl. split; [reflexivity|constructor].
  - destruct (run_home fw req w) as (i & q & _ & _ & Hrun).
    { rewrite El. discriminate. }
    rewrite Hrun, El. simpl. split; [reflexivity|].
    repeat constructor.
Qed.

(** C8: when the list bound to [quotes] is not empty, the view calls the
    renderer exactly once, after its one draw [i]: on the template
    [index.html], with the single variable [message], whose value is the
    entry of the list at index [i] as it stands; and the page returned is
    the renderer's answer to that call. *)
Theorem home_calls_renderer_once (fw : Flask) (G : Type) (RG : RandomGen G)
    (req : request) (w : World G) :
  global_quotes (store w) <> [] ->
  exists i q,
    nth_error (global_quotes (store w)) i = Some q /\
    snd (run fw home req w) =
      [CallRandBelow (length (global_quotes (store w))) i;
       CallRender "index.html" [("message", q)]] /\
    fst (fst (run fw home req w)) =
      render_template fw "index.html" [("message", q)].
Proof.
  intros Hne.
  destruct (run_home fw req w Hne) as (i & q & _ & Hnth & Hrun).
  exists i, q. split; [exact Hnth|]. rewrite Hrun. simpl. split; reflexivity.
Qed.

(** The first request of a process whose generator started in state 3. *)
Lemma home_calls_renderer_once_witness :
  exists i q,
    nth_error (global_quotes (store (boot 3%N))) i = Some q /\
    snd (run sample_flask home get_root (boot 3%N)) =
      [CallRandBelow (length (global_quotes (store (boot 3%N)))) i;
       CallRender "index.html" [("message", q)]] /\
    fst (fst (run sample_flask home get_root (boot 3%N))) =
      render_template sample_flask "index.html" [("message", q)].
Proof.
  apply (@home_calls_renderer_once sample_flask N lcg get_root (boot 3%N)).
  discriminate.
Defined.

(** C9: two GET requests to the root path handled from the same process
    state, generator included, get the same response and leave the same
    state, whatever their query strings, headers and bodies; the runs of
    the view on any two requests coincide, calls included. *)
Theorem request_content_ignored (fw : Flask) (G : Type) (RG : RandomGen G)
    (r1 r2 : request) (w : World G) :
  method r1 = GET -> path r1 = "/" ->
  method r2 = GET -> path r2 = "/" ->
  run fw home r1 w = run fw home r2 w /\
  handle fw r1 w = handle fw r2 w.
Proof.
  intros Hm1 Hp1 Hm2 Hp2.
  pose proof (run_request_irrelevant fw home r1 r2 w home_no_request) as Hrun.
  split; [exact Hrun|].
  unfold handle.
  rewrite (routed_get_root r1 Hm1 Hp1), (routed_get_root r2 Hm2 Hp2), Hrun.
  destruct (run fw home r2 w) as [[r w'] calls].
  unfold to_response. now rewrite Hm1, Hm2.
Qed.

(** A bare request and one with a query string, a header and a body, from the generator state 5. *)
Lemma request_content_ignored_witness :
  run sample_flask home get_root (boot 5%N) =
  run sample_flask home
      {| method := GET; path := "/"; query := "pick=2";
         headers := [("X-Quote", "3")]; payload := "first" |} (boot 5%N) /\
  handle sample_flask get_root (boot 5%N) =
  handle sample_flask
      {| method := GET; path := "/"; query := "pick=2";
         headers := [("X-Quote", "3")]; payload := "first" |} (boot 5%N).
Proof.
  apply (@request_content_ignored sample_flask N lcg); reflexivity.
Defined.

(** ** Properties of the runs as distributions *)

Lemma Qmult_1_r_eq (p : Q) : Qmult p 1 = p.
Proof.
  destruct p as [a b]. unfold Qmult. simpl.
  now rewrite Z.mul_1_r, Pos.mul_1_r.
Qed.

Lemma flat_map_singleton {A B : Type} (h : A -> B) (l : list A) :
  flat_map (fun x => [h x]) l = map h l.
Proof. induction l as [|a l IH]; simpl; [reflexivity | now rewrite IH]. Qed.

Lemma dbind_ext {A B : Type} (d : dist A) (f g : A -> dist B) :
  (forall a, f a = g a) -> dbind d f = dbind d g.
Proof.
  intros H. unfold dbind. apply flat_map_ext. intros pa. now rewrite H.
Qed.

Lemma dbind_dret {A B : Type} (d : dist A) (h : A -> B) :
  dbind d (fun a => dret (h a)) = dmap h d.
Proof.
  unfold dbind, dret, dmap. simpl. rewrite flat_map_singleton.
  apply map_ext. intros [p a]. simpl. now rewrite Qmult_1_r_eq.
Qed.

Lemma map_nth_error_seq {B : Type} (F : option string -> B) (l : list string) :
  map (fun i => F (nth_error l i)) (seq 0 (length l)) =
  map (fun x => F (Some x)) l.
Proof.
  induction l as [|a l IH]; simpl; [reflexivity|].
  f_equal. rewrite <- seq_shift, map_map. exact IH.
Qed.

(** A uniform draw of an index followed by the lookup of the entry gives
    every entry of the list, in order, the weight one over the length. *)
Lemma dbind_uniform_nth {B : Type} (F : option string -> B) (l : list string) :
  dbind (uniform (length l)) (fun i => dret (F (nth_error l i))) =
  map (fun x => (Qmake 1 (Pos.of_nat (length l)), F (Some x))) l.
Proof.
  rewrite dbind_dret. unfold dmap, uniform. rewrite map_map. simpl.
  exact (map_nth_error_seq
           (fun o => (Qmake 1 (Pos.of_nat (length l)), F o)) l).
Qed.

Section RunDFacts.

Variable fw : Flask.

Lemma runD_select (req : request) (s : Store) :
  global_quotes s <> [] ->
  runD fw select_message req s =
  map (fun q => (Qmake 1 (Pos.of_nat (length (global_quotes s))), (inr q, s)))
      (global_quotes s).
Proof.
  intros Hne. unfold select_message, choice. simpl.
  destruct (Nat.eqb (length (global_quotes s)) 0) eqn:E.
  { apply Nat.eqb_eq in E. destruct (global_quotes s); [contradiction|discriminate]. }
  simpl.
  rewrite <- (dbind_uniform_nth
                (fun o => match o with
                          | Some x => (inr x, s)
                          | None => (inl IndexError, s)
                          end)).
  apply dbind_ext. intros i. now destruct (nth_error (global_quotes s) i).
Qed.

Lemma runD_home (req : request) (s : Store) :
  global_quotes s <> [] ->
  runD fw home req s =
  map (fun q => (Qmake 1 (Pos.of_nat (length (global_quotes s))),
                 (inr (page fw q), s)))
      (global_quotes s).
Proof.
  intros Hne. unfold home, select_message, choice. simpl.
  destruct (Nat.eqb (length (global_quotes s)) 0) eqn:E.
  { apply Nat.eqb_eq in E. destruct (global_quotes s); [contradiction|discriminate]. }
  simpl.
  rewrite <- (dbind_uniform_nth
                (fun o => match o with
                          | Some x => (inr (page fw x), s)
                          | None => (inl IndexError, s)
                          end)).
  apply dbind_ext. intros i. now destruct (nth_error (global_quotes s) i).
Qed.

(** A program without a write ends in the store it started from, on every
    outcome. *)
Lemma runD_frame {A : Type} (p : prog A) (req : request) (s : Store) :
  no_mutation p -> Forall (fun o => snd (snd o) = s) (runD fw p req s).
Proof.
  induction p as [a|e|k IH|f k IH|k IH|n k IH|name context k IH];
    intros Hp; simpl in *.
  - repeat constructor.
  - repeat constructor.
  - apply IH, Hp.
  - contradiction.
  - apply IH, Hp.
  - unfold dbind. apply Forall_flat_map, Forall_forall. intros [q i] _.
    apply Forall_map. simpl.
    eapply Forall_impl; [|apply (IH i (Hp i))]. intros o Ho; exact Ho.
  - destruct (render_template fw name context) as [e|html].
    + repeat constructor.
    + apply IH, Hp.
Qed.

Lemma handleD_frame (req : request) (s : Store) :
  Forall (fun o => snd (snd o) = s) (handleD fw req s).
Proof.
  unfold handleD. destruct (routed req).
  - unfold dmap. apply Forall_map. simpl.
    eapply Forall_impl; [|apply (runD_frame home req s home_no_mutation)].
    intros o Ho; exact Ho.
  - repeat constructor.
Qed.

Lemma dmap_fst_prepend {A : Type} (x : A) (e : dist (list A * Store)) :
  dmap fst (dbind e (fun rss => dret (x :: fst rss, snd rss))) =
  dbind (dmap fst e) (fun xs => dret (x :: xs)).
Proof.
  rewrite !dbind_dret. unfold dmap. rewrite !map_map. reflexivity.
Qed.

Lemma serveD_step {A : Type} (h : dist (A * Store))
    (rest : Store -> dist (list A * Store)) (s : Store) :
  Forall (fun o => snd (snd o) = s) h ->
  dmap fst (dbind h (fun rs =>
              dbind (rest (snd rs)) (fun rss =>
                dret (fst rs :: fst rss, snd rss)))) =
  dbind (dmap fst h) (fun x =>
    dbind (dmap fst (rest s)) (fun xs => dret (x :: xs))).
Proof.
  induction h as [|[p [x s0]] h IH]; intros Hf; [reflexivity|].
  inversion Hf as [|? ? Hs Hrest]. simpl in Hs. subst.
  unfold dbind at 1 3. simpl. fold (dbind h (fun rs =>
              dbind (rest (snd rs)) (fun rss =>
                dret (fst rs :: fst rss, snd rss)))).
  fold (dbind (dmap fst h) (fun x0 =>
    dbind (dmap fst (rest s)) (fun xs => dret (x0 :: xs)))).
  unfold dmap at 1. rewrite map_app. f_equal.
  - rewrite map_map. simpl. rewrite <- dmap_fst_prepend.
    unfold dmap. rewrite map_map. reflexivity.
  - apply IH, Hrest.
Qed.

End RunDFacts.

(** Equal weights on the entries of a list give a string the weight times its
    number of occurrences. *)
Lemma pr_selects_map (wt : Q) (s : Store) (q : string) (l : list string) :
  Qeq (pr (selects q) (map (fun x => (wt, (inr x, s))) l))
      (Qmult wt (inject_Z (Z.of_nat (count_occ string_dec l q)))).
Proof.
  induction l as [|x l IH]; simpl.
  - unfold selects. simpl. ring.
  - unfold selects at 1. simpl.
    destruct (string_dec x q) as [->|Hne].
    + rewrite String.eqb_refl, IH, Nat2Z.inj_succ.
      unfold Z.succ. rewrite inject_Z_plus. ring.
    + apply String.eqb_neq in Hne. rewrite Hne. exact IH.
Qed.

(** What a run on the process state returns is an outcome of the run as a
    distribution. *)
Lemma run_home_in_support (fw : Flask) (G : Type) (RG : RandomGen G)
    (req : request) (w : World G) :
  global_quotes (store w) <> [] ->
  In (fst (fst (run fw home req w)), store (snd (fst (run fw home req w))))
     (map snd (runD fw home req (store w))).
Proof.
  intros Hne.
  destruct (run_home fw req w Hne) as (i & q & _ & Hnth & Hrun).
  rewrite Hrun, (runD_home fw req (store w) Hne), map_map. simpl.
  apply in_map_iff. exists q. split; [reflexivity|].
  eapply nth_error_In; exact Hnth.
Qed.

(** C2: on a GET request to the root path, with a list of [n] entries bound
    to [quotes] ([n] not 0), the selection is distributed over the entries of
    the list, each entry having the weight [1/n]; so is the response over
    the pages of the entries; and a string is selected with probability its
    number of occurrences in the list over [n]. *)
Theorem selection_uniform (fw : Flask) (req : request) (s : Store) :
  method req = GET -> path req = "/" ->
  global_quotes s <> [] ->
  runD fw select_message req s =
    map (fun q => (Qmake 1 (Pos.of_nat (length (global_quotes s))), (inr q, s)))
        (global_quotes s) /\
  handleD fw req s =
    map (fun q => (Qmake 1 (Pos.of_nat (length (global_quotes s))), (ok fw q, s)))
        (global_quotes s) /\
  forall q,
    Qeq (pr (selects q) (runD fw select_message req s))
        (Qmult (Qmake 1 (Pos.of_nat (length (global_quotes s))))
               (inject_Z (Z.of_nat (count_occ string_dec (global_quotes s) q)))).
Proof.
  intros Hm Hp Hne. split; [now apply runD_select|]. split.
  - unfold handleD. rewrite (routed_get_root req Hm Hp), (runD_home fw req s Hne).
    unfold dmap. rewrite map_map. apply map_ext. intros q. simpl.
    unfold ok. now rewrite Hm.
  - intros q. rewrite (runD_select fw req s Hne). apply pr_selects_map.
Qed.

(** The selection at startup: five entries, one fifth each. *)
Lemma selection_uniform_witness :
  runD sample_flask select_message get_root startup =
    map (fun q => (Qmake 1 (Pos.of_nat (length (global_quotes startup))),
                   (inr q, startup)))
        (global_quotes startup) /\
  handleD sample_flask get_root startup =
    map (fun q => (Qmake 1 (Pos.of_nat (length (global_quotes startup))),
                   (ok sample_flask q, startup)))
        (global_quotes startup) /\
  forall q,
    Qeq (pr (selects q) (runD sample_flask select_message get_root startup))
        (Qmult (Qmake 1 (Pos.of_nat (length (global_quotes startup))))
               (inject_Z (Z.of_nat (count_occ string_dec
                                      (global_quotes startup) q)))).
Proof.
  apply (@selection_uniform sample_flask get_root startup);
    [reflexivity | reflexivity | discriminate].
Defined.

(** C4: for every sequence of requests served from a state of the process,
    the joint distribution of the responses is the product of the
    distributions each request has when it is handled alone from that same
    state: what was answered to one request has no bearing on the answer to
    another. *)
Theorem responses_independent (fw : Flask) (reqs : list request) (s : Store) :
  dmap fst (serveD fw reqs s) =
  joint (map (fun req => dmap fst (handleD fw req s)) reqs).
Proof.
  induction reqs as [|req rest IH]; simpl; [reflexivity|].
  rewrite serveD_step with (s := s) by apply handleD_frame.
  now rewrite IH.
Qed.

(** Two requests in a row from startup: every ordered pair of entries of the
    list is the pair of quotes shown with weight 1/25. *)
Lemma two_requests_all_pairs (fw : Flask) :
  dmap fst (serveD fw [get_root; get_root] startup) =
  flat_map (fun a => map (fun b => (Qmake 1 25, [ok fw a; ok fw b])) quotes)
           quotes.
Proof. vm_compute. reflexivity. Qed.

(** C10: the configured list has five entries, pairwise distinct, none of
    them empty, and the selection made from startup gives each of them the
    probability one fifth. *)
Theorem quotes_five_distinct (fw : Flask) (req : request) :
  length quotes = 5 /\
  NoDup quotes /\
  Forall (fun q => q <> "") quotes /\
  Forall (fun q => Qeq (pr (selects q) (runD fw select_message req startup))
                       (Qmake 1 5))
         quotes.
Proof.
  split; [reflexivity|]. split; [exact quotes_NoDup|].
  split; [exact quotes_nonempty_strings|].
  repeat constructor; vm_compute; reflexivity.
Qed.

(** ** Further properties of the endpoint *)

(** X1: a GET request to the root path is answered with status 200 exactly
    when the list bound to [quotes] has an entry, and with status 500
    exactly when it has none. *)
Theorem status_tells_list (fw : Flask) (G : Type) (RG : RandomGen G)
    (req : request) (w : World G) :
  method req = GET -> path req = "/" ->
  (status (fst (handle fw req w)) = 200 <-> global_quotes (store w) <> []) /\
  (status (fst (handle fw req w)) = 500 <-> global_quotes (store w) = []).
Proof.
  intros Hm Hp. unfold handle. rewrite (routed_get_root req Hm Hp).
  destruct (global_quotes (store w)) as [|q0 l] eqn:El.
  - rewrite (run_home_empty fw req w El). simpl.
    split; split; intros H; try reflexivity; try discriminate; contradiction.
  - destruct (run_home fw req w) as (i & q & _ & _ & Hrun).
    { rewrite El. discriminate. }
    rewrite Hrun. simpl.
    split; split; intros H; try reflexivity; discriminate.
Qed.

(** One request on a process with a list, one on a process without. *)
Lemma status_tells_list_witness :
  (status (fst (handle sample_flask get_root (boot 9%N))) = 200 <->
   global_quotes (store (boot 9%N)) <> []) /\
  (status (fst (handle sample_flask get_root (boot 9%N))) = 500 <->
   global_quotes (store (boot 9%N)) = []).
Proof.
  apply (@status_tells_list sample_flask N lcg get_root (boot 9%N));
    reflexivity.
Defined.




(** One request the rule matches, on a list with entries: one draw below the
    length of the list, the store as before. *)
Lemma handle_routed_world (fw : Flask) (G : Type) (RG : RandomGen G)
    (req : request) (w : World G) :
  routed req = true ->
  global_quotes (store w) <> [] ->
  snd (handle fw req w) =
    {| store := store w;
       rng := snd (randbelow (rng w) (length (global_quotes (store w)))) |}.
Proof.
  intros Hr Hne. unfold handle. rewrite Hr.
  destruct (run_home fw req w Hne) as (i & q & _ & _ & Hrun).
  now rewrite Hrun.
Qed.

(** X4: serving a sequence of requests on a list with entries moves the
    generator by exactly one draw below the length of the list for each
    request the rule matches, and by nothing else; the store stays as it
    was. *)
Theorem one_draw_per_routed_request (fw : Flask) (G : Type)
    (RG : RandomGen G) (reqs : list request) (w : World G) :
  global_quotes (store w) <> [] ->
  snd (serve fw reqs w) =
    {| store := store w;
       rng := draws (length (filter routed reqs))
                    (length (global_quotes (store w))) (rng w) |}.
Proof.
  revert w. induction reqs as [|req rest IH]; intros w Hne; simpl.
  - now destruct w.
  - destruct (routed req) eqn:Hr.
    + pose proof (@handle_routed_world fw G RG req w Hr Hne) as Hw.
      destruct (handle fw req w) as [resp w']. simpl in Hw. subst w'.
      set (w1 := {| store := store w;
                    rng := snd (randbelow (rng w)
                                  (length (global_quotes (store w)))) |}).
      specialize (IH w1 Hne).
      destruct (serve fw rest w1) as [resps w'']. simpl in *. exact IH.
    + unfold handle. rewrite Hr. specialize (IH w Hne).
      destruct (serve fw rest w) as [resps w'']. simpl in *. exact IH.
Qed.

(** Three requests to the root path and two to other places, from
    startup. *)
Lemma one_draw_per_routed_request_witness :
  snd (serve sample_flask
         [get_root;
          {| method := POST; path := "/"; query := ""; headers := [];
             payload := "x" |};
          get_root;
          {| method := GET; path := "/about"; query := ""; headers := [];
             payload := "" |};
          get_root] (boot 7%N)) =
    {| store := store (boot 7%N);
       rng := draws
                (length (filter routed
                   [get_root;
                    {| method := POST; path := "/"; query := ""; headers := [];
                       payload := "x" |};
                    get_root;
                    {| method := GET; path := "/about"; query := "";
                       headers := []; payload := "" |};
                    get_root]))
                (length (global_quotes (store (boot 7%N)))) (rng (boot 7%N)) |}.
Proof.
  apply (@one_draw_per_routed_request sample_flask N lcg). discriminate.
Defined.

(** X5: a HEAD request to the root path runs the view as a GET request does:
    the same draw, the same call of the renderer, the same state of the
    process afterwards, the same status; only the body is withheld when the
    view returned a page. *)
Theorem head_runs_the_view (fw : Flask) (G : Type) (RG : RandomGen G)
    (rh rg : request) (w : World G) :
  method rh = HEAD -> path rh = "/" ->
  method rg = GET -> path rg = "/" ->
  run fw home rh w = run fw home rg w /\
  snd (handle fw rh w) = snd (handle fw rg w) /\
  status (fst (handle fw rh w)) = status (fst (handle fw rg w)) /\
  (global_quotes (store w) <> [] -> body (fst (handle fw rh w)) = "").
Proof.
  intros Hmh Hph Hmg Hpg.
  pose proof (run_request_irrelevant fw home rh rg w home_no_request) as Hrun.
  split; [exact Hrun|].
  assert (Hrh : routed rh = true) by (unfold routed; now rewrite Hmh, Hph).
  unfold handle. rewrite Hrh, (routed_get_root rg Hmg Hpg), Hrun.
  destruct (run fw home rg w) as [[r w'] calls] eqn:Er.
  simpl. split; [reflexivity|]. split.
  - destruct r; reflexivity.
  - intros Hne. destruct (run_home fw rg w Hne) as (i & q & _ & _ & Hq).
    rewrite Er in Hq. injection Hq as -> _ _. simpl. now rewrite Hmh.
Qed.

Lemma head_runs_the_view_witness :
  run sample_flask home
      {| method := HEAD; path := "/"; query := ""; headers := [];
         payload := "" |} (boot 2%N)
  = run sample_flask home get_root (boot 2%N) /\
  snd (handle sample_flask
         {| method := HEAD; path := "/"; query := ""; headers := [];
            payload := "" |} (boot 2%N))
  = snd (handle sample_flask get_root (boot 2%N)) /\
  status (fst (handle sample_flask
                 {| method := HEAD; path := "/"; query := ""; headers := [];
                    payload := "" |} (boot 2%N)))
  = status (fst (handle sample_flask get_root (boot 2%N))) /\
  (global_quotes (store (boot 2%N)) <> [] ->
   body (fst (handle sample_flask
                {| method := HEAD; path := "/"; query := ""; headers := [];
                   payload := "" |} (boot 2%N))) = "").
Proof.
  apply (@head_runs_the_view sample_flask N lcg); reflexivity.
Defined.

(** X6: the view puts no constraint on what successive requests show: for
    every sequence of entries of the list, repeats and any order included,
    there is a behaviour of the generator under which GET requests to the
    root path are answered with the pages of exactly these entries, in this
    order. *)
Theorem any_sequence_can_be_shown (fw : Flask) (s : Store)
    (qs : list string) (reqs : list request) :
  Forall (fun q => In q (global_quotes s)) qs ->
  Forall (fun req => method req = GET /\ path req = "/") reqs ->
  length reqs = length qs ->
  exists script : list nat,
    fst (serve fw reqs {| store := s; rng := script |}) = map (ok fw) qs.
Proof.
  revert reqs. induction qs as [|q qs IH]; intros reqs Hin Hget Hlen.
  - destruct reqs; [|discriminate]. exists []. reflexivity.
  - destruct reqs as [|req rest]; [discriminate|].
    inversion Hin as [|? ? Hq Hqs]; subst.
    inversion Hget as [|? ? [Hm Hp] Hrest]; subst.
    injection Hlen as Hlen.
    destruct (IH rest Hqs Hrest Hlen) as [script Hscript].
    destruct (In_nth_error _ _ Hq) as [i Hi].
    assert (Hlt : i < length (global_quotes s))
      by (apply nth_error_Some; rewrite Hi; discriminate).
    assert (Hne : global_quotes s <> [])
      by (intros E; rewrite E in Hlt; simpl in Hlt; lia).
    exists (i :: script).
    set (w := {| store := s; rng := i :: script |}).
    assert (Hh : handle fw req w = (ok fw q, {| store := s; rng := script |})).
    { destruct (run_home fw req w Hne) as (j & q' & Hj & Hnth & Hrun).
      simpl in Hj, Hnth. rewrite (Nat.mod_small _ _ Hlt) in Hj. subst j.
      rewrite Hi in Hnth. injection Hnth as <-.
      unfold handle. rewrite (routed_get_root req Hm Hp), Hrun. simpl.
      unfold ok. now rewrite Hm. }
    cbn [serve]. rewrite Hh.
    destruct (serve fw rest {| store := s; rng := script |}) as [resps w''].
    simpl in *. now rewrite Hscript.
Qed.

(** The last entry three times, then the first. *)
Lemma any_sequence_can_be_shown_witness :
  exists script : list nat,
    fst (serve sample_flask [get_root; get_root; get_root; get_root]
           {| store := startup; rng := script |})
    = map (ok sample_flask)
          ["🎯 Focus on progress, not perfection.";
           "🎯 Focus on progress, not perfection.";
           "🎯 Focus on progress, not perfection.";
           "💡 Believe in yourself — you’re unstoppable!"].
Proof.
  apply (@any_sequence_can_be_shown sample_flask startup
           ["🎯 Focus on progress, not perfection.";
            "🎯 Focus on progress, not perfection.";
            "🎯 Focus on progress, not perfection.";
            "💡 Believe in yourself — you’re unstoppable!"]
           [get_root; get_root; get_root; get_root]).
  - repeat constructor; simpl; tauto.
  - repeat constructor.
  - reflexivity.
Defined.

(** ** Probabilities over sequences of requests *)

Section Probabilities.

Local Open Scope Q_scope.

Lemma pr_app {A : Type} (E : A -> bool) (a b : dist A) :
  pr E (a ++ b)%list == pr E a + pr E b.
Proof.
  induction a as [|[p x] a IH]; simpl.
  - ring.
  - destruct (E x); rewrite IH; ring.
Qed.

Lemma pr_scale {A : Type} (E : A -> bool) (p : Q) (d : dist A) :
  pr E (map (fun qb => (p * fst qb, snd qb)) d) == p * pr E d.
Proof.
  induction d as [|[q x] d IH]; simpl.
  - ring.
  - destruct (E x); rewrite IH; ring.
Qed.

Lemma pr_dbind {A B : Type} (E : B -> bool) (d : dist A) (f : A -> dist B) :
  pr E (dbind d f) == qsum (fun pa => fst pa * pr E (f (snd pa))) d.
Proof.
  induction d as [|[p x] d IH]; simpl; [reflexivity|].
  unfold dbind in *. simpl. rewrite pr_app, pr_scale, IH. reflexivity.
Qed.

Lemma pr_dmap {A B : Type} (E : B -> bool) (g : A -> B) (d : dist A) :
  pr E (dmap g d) = pr (fun a => E (g a)) d.
Proof.
  induction d as [|[p x] d IH]; simpl; [reflexivity|]. now rewrite IH.
Qed.

Lemma pr_ext {A : Type} (E E' : A -> bool) (d : dist A) :
  (forall a, E a = E' a) -> pr E d = pr E' d.
Proof.
  intros H. induction d as [|[p x] d IH]; simpl; [reflexivity|].
  now rewrite H, IH.
Qed.

Lemma pr_never {A : Type} (d : dist A) : pr (fun _ => false) d = 0.
Proof. induction d as [|[p x] d IH]; simpl; [reflexivity | exact IH]. Qed.

Lemma qsum_ext {A : Type} (f g : A -> Q) (l : list A) :
  (forall a, In a l -> f a == g a) -> qsum f l == qsum g l.
Proof.
  induction l as [|a l IH]; intros H; simpl; [reflexivity|].
  rewrite (H a (or_introl eq_refl)), IH; [reflexivity|].
  intros b Hb. apply H. now right.
Qed.

Lemma qsum_map {A B : Type} (f : B -> Q) (h : A -> B) (l : list A) :
  qsum f (map h l) = qsum (fun x => f (h x)) l.
Proof.
  induction l as [|a l IH]; simpl; [reflexivity | now rewrite IH].
Qed.

Lemma inject_nat_succ (n : nat) :
  inject_Z (Z.of_nat (S n)) == inject_Z (Z.of_nat n) + 1.
Proof.
  rewrite Nat2Z.inj_succ. unfold Z.succ. rewrite inject_Z_plus. reflexivity.
Qed.

(** One over [n], [n] times, is one. *)
Lemma weight_times_length (n : nat) :
  (0 < n)%nat -> (1 # Pos.of_nat n) * inject_Z (Z.of_nat n) == 1.
Proof.
  intros Hn. unfold Qeq, Qmult, inject_Z. simpl.
  rewrite Pos.mul_1_r, Z.mul_1_r.
  destruct n as [|n]; [lia|].
  rewrite <- (Nat2Pos.id (S n)) at 1 by discriminate.
  now rewrite positive_nat_Z.
Qed.

Variable fw : Flask.

Lemma shows_ok (q x : string) : shows fw q (ok fw x) = String.eqb x q.
Proof.
  unfold shows, response_eqb, ok. simpl.
  destruct (String.eqb x q) eqn:E.
  - apply String.eqb_eq in E. subst x. apply String.eqb_refl.
  - apply String.eqb_neq. intros H. apply page_inj in H.
    apply String.eqb_neq in E. contradiction.
Qed.

Lemma response_eqb_ok (x y : string) :
  response_eqb (ok fw y) (ok fw x) = String.eqb y x.
Proof. exact (shows_ok x y). Qed.

(** The distribution of the response to a GET request to the root path. *)
Lemma handleD_root (req : request) (s : Store) :
  method req = GET -> path req = "/"%string ->
  global_quotes s <> [] ->
  handleD fw req s =
    map (fun q => (1 # Pos.of_nat (length (global_quotes s)), (ok fw q, s)))
        (global_quotes s).
Proof.
  intros Hm Hp Hne. unfold handleD.
  rewrite (routed_get_root req Hm Hp), (runD_home fw req s Hne).
  unfold dmap. rewrite map_map. apply map_ext. intros q. simpl.
  unfold ok. now rewrite Hm.
Qed.

(** The weight of an event after a GET request to the root path and then
    whatever [rest] does: the mean, over the entries of the list, of its
    weight once the page of the entry is put in front. *)
Lemma pr_after_root (E : list response * Store -> bool) (req : request)
    (s : Store) (rest : Store -> dist (list response * Store)) :
  method req = GET -> path req = "/"%string ->
  global_quotes s <> [] ->
  pr E (dbind (handleD fw req s) (fun rs =>
          dbind (rest (snd rs)) (fun rss =>
            dret (fst rs :: fst rss, snd rss)))) ==
  qsum (fun x => (1 # Pos.of_nat (length (global_quotes s))) *
                 pr (fun o => E (ok fw x :: fst o, snd o)) (rest s))
       (global_quotes s).
Proof.
  intros Hm Hp Hne.
  rewrite pr_dbind, (handleD_root req s Hm Hp Hne), qsum_map. simpl.
  apply qsum_ext. intros x _.
  now rewrite dbind_dret, pr_dmap.
Qed.

End Probabilities.

Section Sequences.

Local Open Scope Q_scope.

Variable fw : Flask.

Lemma qsum_const {A : Type} (c : Q) (l : list A) :
  qsum (fun _ => c) l == c * inject_Z (Z.of_nat (length l)).
Proof.
  induction l as [|a l IH]; [simpl; ring|].
  change (qsum (fun _ => c) (a :: l)) with (c + qsum (fun _ => c) l).
  change (length (a :: l)) with (S (length l)).
  rewrite IH, inject_nat_succ. ring.
Qed.

Lemma qsum_miss (wt P : Q) (q : string) (l : list string) :
  qsum (fun x => wt * (if String.eqb x q then 0 else P)) l ==
  wt * inject_Z (Z.of_nat (length l - count_occ string_dec l q)) * P.
Proof.
  induction l as [|x l IH]; [simpl; ring|].
  change (qsum (fun x => wt * (if String.eqb x q then 0 else P)) (x :: l))
    with (wt * (if String.eqb x q then 0 else P) +
          qsum (fun x => wt * (if String.eqb x q then 0 else P)) l).
  rewrite IH. simpl count_occ. simpl length.
  destruct (string_dec x q) as [->|Hne].
  - rewrite String.eqb_refl. simpl Nat.sub. ring.
  - apply String.eqb_neq in Hne. rewrite Hne.
    pose proof (count_occ_bound string_dec q l) as Hb.
    rewrite Nat.sub_succ_l by exact Hb.
    rewrite inject_nat_succ. ring.
Qed.

Lemma qsum_hit (wt : Q) (x : string) (l : list string) :
  qsum (fun y => wt * (if String.eqb x y then 1 + 0 else 0)) l ==
  wt * inject_Z (Z.of_nat (count_occ string_dec l x)).
Proof.
  induction l as [|y l IH]; [simpl; ring|].
  change (qsum (fun y => wt * (if String.eqb x y then 1 + 0 else 0)) (y :: l))
    with (wt * (if String.eqb x y then 1 + 0 else 0) +
          qsum (fun y => wt * (if String.eqb x y then 1 + 0 else 0)) l).
  rewrite IH. simpl count_occ.
  destruct (string_dec y x) as [->|Hne].
  - rewrite String.eqb_refl, inject_nat_succ. ring.
  - assert (E : String.eqb x y = false)
      by (apply String.eqb_neq; congruence).
    rewrite E. ring.
Qed.

(** X7: over any number of GET requests to the root path, served one after
    the other on a list with entries, the probability that none of the
    responses is the page of [q] is the share of the entries other than [q],
    to the power of the number of requests (that share is four fifths for an
    entry of the configured list, [miss_configured]). *)
Theorem quote_missed_every_time (reqs : list request) (s : Store)
    (q : string) :
  Forall (fun req => method req = GET /\ path req = "/"%string) reqs ->
  global_quotes s <> [] ->
  pr (never_shows fw q) (serveD fw reqs s) ==
  qpow (miss (global_quotes s) q) (length reqs).
Proof.
  intros Hget Hne. induction reqs as [|req rest IH].
  - vm_compute. reflexivity.
  - inversion Hget as [|? ? [Hm Hp] Hrest]; subst.
    cbn [serveD].
    rewrite (pr_after_root fw (never_shows fw q) req s (serveD fw rest)
               Hm Hp Hne).
    rewrite (qsum_ext _
               (fun x => (1 # Pos.of_nat (length (global_quotes s))) *
                         (if String.eqb x q then 0
                          else pr (never_shows fw q) (serveD fw rest s)))).
    + rewrite qsum_miss, (IH Hrest). simpl qpow. simpl length.
      unfold miss. ring.
    + intros x _. unfold never_shows at 1. simpl fst. simpl forallb.
      rewrite (pr_ext _ (fun o => negb (String.eqb x q) && never_shows fw q o)).
      * destruct (String.eqb x q); simpl negb; simpl andb.
        -- now rewrite pr_never.
        -- reflexivity.
      * intros o. now rewrite shows_ok.
Qed.

(** For each entry of the configured list, the share of the other entries is
    four fifths. *)
Lemma miss_configured :
  Forall (fun q => miss quotes q == 4 # 5) quotes.
Proof. repeat constructor; vm_compute; reflexivity. Qed.

(** X8: nothing keeps a quote from coming twice in a row: when the entries
    of the list are pairwise distinct, two GET requests to the root path
    served one after the other get the same page with probability one over
    the length of the list. *)
Theorem same_quote_twice (r1 r2 : request) (s : Store) :
  method r1 = GET -> path r1 = "/"%string ->
  method r2 = GET -> path r2 = "/"%string ->
  NoDup (global_quotes s) ->
  global_quotes s <> [] ->
  pr same_twice (serveD fw [r1; r2] s) ==
  1 # Pos.of_nat (length (global_quotes s)).
Proof.
  intros Hm1 Hp1 Hm2 Hp2 Hnd Hne.
  set (wt := 1 # Pos.of_nat (length (global_quotes s))).
  cbn [serveD].
  rewrite (pr_after_root fw same_twice r1 s
             (fun s' => dbind (handleD fw r2 s') (fun rs =>
                dbind (dret ([], snd rs)) (fun rss =>
                  dret (fst rs :: fst rss, snd rss))))
             Hm1 Hp1 Hne).
  fold wt.
  rewrite (qsum_ext _ (fun _ => wt * wt)).
  - rewrite qsum_const.
    assert (Hlen : (0 < length (global_quotes s))%nat)
      by (destruct (global_quotes s); [contradiction | simpl; lia]).
    pose proof (weight_times_length Hlen) as Hw. fold wt in Hw.
    rewrite <- Qmult_assoc, Hw. ring.
  - intros x Hx.
    rewrite (pr_after_root fw (fun o => same_twice (ok fw x :: fst o, snd o))
               r2 s (fun s' => dret ([], s')) Hm2 Hp2 Hne).
    fold wt.
    rewrite (qsum_ext _ (fun y => wt * (if String.eqb x y then 1 + 0 else 0))).
    + rewrite qsum_hit.
      assert (Hc : count_occ string_dec (global_quotes s) x = 1%nat)
        by (apply NoDup_count_occ'; assumption).
      rewrite Hc. simpl. ring.
    + intros y _. unfold same_twice, dret, pr. simpl.
      now rewrite (response_eqb_ok fw y x).
Qed.

End Sequences.

(** Three requests from startup and the first entry of the list. *)
Lemma quote_missed_every_time_witness :
  Qeq (pr (never_shows sample_flask "💡 Believe in yourself — you’re unstoppable!")
     (serveD sample_flask [get_root; get_root; get_root] startup))
  (qpow (miss (global_quotes startup)
             "💡 Believe in yourself — you’re unstoppable!")
       (length [get_root; get_root; get_root])).
Proof.
  apply (@quote_missed_every_time sample_flask
           [get_root; get_root; get_root] startup).
  - repeat constructor.
  - discriminate.
Defined.

(** Two requests from startup. *)
Lemma same_quote_twice_witness :
  Qeq (pr same_twice (serveD sample_flask [get_root; get_root] startup))
      (Qmake 1 (Pos.of_nat (length (global_quotes startup)))).
Proof.
  apply (@same_quote_twice sample_flask get_root get_root startup);
    try reflexivity; [exact quotes_NoDup | discriminate].
Defined.
